(** * ContentManagementSystemAdminPanel: the [App] component of src/App.js

    A shallow embedding of the React component [App]: its five pieces of
    component state, the axios results its handlers branch on, the handlers
    themselves as small effect programs that suspend at their [await], and
    the event loop that dispatches user events and completes requests in
    flight. *)

From Stdlib Require Import List String Ascii ZArith Bool Lia DecimalString.
Import ListNotations.
Open Scope string_scope.

Set Implicit Arguments.

(** ** JavaScript values the component handles *)

Module Js.

(** [!s] on a string: only the empty string is falsy. *)
Definition truthy (s : string) : bool := negb (s =? "").

(** [a || b] where [a] is a string or [undefined]. *)
Definition or_else (a : option string) (b : string) : string :=
  match a with
  | Some s => if truthy s then s else b
  | None => b
  end.

(** Template-literal rendering of an integer: [`${n}`]. *)
Definition show (n : Z) : string := NilZero.string_of_int (Z.to_int n).

End Js.

(** ** Data model *)

(** An item identifier as the server's JSON carries it: a number or a
    string.  [===] on two such values is structural equality and never
    coerces, so [1 === "1"] is false. *)
Inductive ident : Type :=
| IdNum (n : Z)
| IdStr (s : string).

Definition strict_eq (a b : ident) : bool :=
  match a, b with
  | IdNum n, IdNum m => Z.eqb n m
  | IdStr s, IdStr t => String.eqb s t
  | _, _ => false
  end.

Definition show_ident (i : ident) : string :=
  match i with
  | IdNum n => Js.show n
  | IdStr s => s
  end.

Record ContentItem : Type := mkItem {
  id : ident;
  title : string;
  description : string;
  imageUrl : option string;
  createdAt : string
}.

(** A [File] picked in the file input. *)
Record File : Type := mkFile {
  file_name : string;
  file_bytes : string
}.

(** [formData.image]: [null] initially and after a successful submit,
    [e.target.files[0]] after a change of the file input, which is
    [undefined] when the selection was cancelled. *)
Inductive image_val : Type :=
| ImgNull
| ImgUndefined
| ImgFile (f : File).

Definition image_truthy (i : image_val) : bool :=
  match i with
  | ImgFile _ => true
  | _ => false
  end.

Record FormDraft : Type := mkDraft {
  fd_title : string;
  fd_description : string;
  fd_image : image_val
}.

(** The component state of [App] (its five [useState] cells) and the value
    of the DOM element [#imageInput], which [handleSubmit] writes. *)
Record state : Type := mkState {
  content : list ContentItem;
  formData : FormDraft;
  loading : bool;
  message : string;
  serverStatus : string;
  imageInput : string
}.

Definition empty_draft : FormDraft := mkDraft "" "" ImgNull.

Definition initial_state : state :=
  mkState [] empty_draft false "" "checking..." "".

Definition CONNECTED : string := "✅ Connected".
Definition DISCONNECTED : string := "❌ Disconnected".
Definition VALIDATION_MESSAGE : string :=
  "Please fill all fields and select an image".
Definition CANNOT_CONNECT : string :=
  "Cannot connect to server. Make sure backend is running on port 2148!".

Definition set_content (u : list ContentItem -> list ContentItem) (s : state) :=
  mkState (u (content s)) (formData s) (loading s) (message s)
          (serverStatus s) (imageInput s).
Definition set_formData (u : FormDraft -> FormDraft) (s : state) :=
  mkState (content s) (u (formData s)) (loading s) (message s)
          (serverStatus s) (imageInput s).
Definition set_loading (b : bool) (s : state) :=
  mkState (content s) (formData s) b (message s) (serverStatus s)
          (imageInput s).
Definition set_message (m : string) (s : state) :=
  mkState (content s) (formData s) (loading s) m (serverStatus s)
          (imageInput s).
Definition set_serverStatus (m : string) (s : state) :=
  mkState (content s) (formData s) (loading s) (message s) m (imageInput s).
Definition set_imageInput (v : string) (s : state) :=
  mkState (content s) (formData s) (loading s) (message s) (serverStatus s) v.

(** ** The axios layer *)

(** [error.response] of a rejected request: the server answered with a
    status outside 2xx.  [er_message] is [response.data?.message]. *)
Record error_response : Type := mkErrResp {
  er_status : Z;
  er_statusText : string;
  er_message : option string
}.

(** The value a rejected [await] throws into [catch].  [err_request] is the
    truthiness of [error.request]. *)
Record js_error : Type := mkError {
  err_response : option error_response;
  err_request : bool;
  err_message : string
}.

(** [response.data] of a resolved request, a JSON object as the backend
    sends it: [success] (its truthiness), [data] and [message]. *)
Record body (D : Type) : Type := mkBody {
  body_success : bool;
  body_data : D;
  body_message : option string
}.

Record response (D : Type) : Type := mkResponse {
  resp_status : Z;
  resp_statusText : string;
  resp_data : body D
}.

Inductive outcome (D : Type) : Type :=
| Resolved (r : response D)
| Rejected (e : js_error).

Arguments Rejected {D} e.

(** One part of a multipart [FormData] payload.  [FormData.append] keeps a
    [File] as it is and stringifies anything else. *)
Inductive part : Type :=
| PText (s : string)
| PBlob (f : File).

Definition append_image (i : image_val) : part :=
  match i with
  | ImgFile f => PBlob f
  | ImgNull => PText "null"
  | ImgUndefined => PText "undefined"
  end.

(** The four requests of the component, indexed by the type of the [data]
    field the backend answers with. *)
Inductive request : Type -> Type :=
| GetHealth : request unit
| GetContent : request (list ContentItem)
| PostContent (form : list (string * part)) : request ContentItem
| DeleteContent (i : ident) : request unit.

Definition API_BASE : string := "http://localhost:2148/api".

Definition url {D : Type} (r : request D) : string :=
  match r with
  | GetHealth => API_BASE ++ "/health"
  | GetContent => API_BASE ++ "/content"
  | PostContent _ => API_BASE ++ "/content"
  | DeleteContent i => API_BASE ++ "/content/" ++ show_ident i
  end.

(** ** Handlers as effect programs

    A handler is a sequence of state setters that may suspend once at an
    [await]; the continuation receives the outcome of the request.  A
    functional update [setX(prev => ...)] and a direct [setX(v)] are both
    [SetX u]: the direct one ignores [prev].  [console.log] and
    [e.preventDefault()] touch nothing modelled here and are left out. *)
Inductive prog : Type :=
| Done
| SetContent (u : list ContentItem -> list ContentItem) (k : prog)
| SetFormData (u : FormDraft -> FormDraft) (k : prog)
| SetLoading (b : bool) (k : prog)
| SetMessage (m : string) (k : prog)
| SetServerStatus (m : string) (k : prog)
| SetImageInput (v : string) (k : prog)
| Await (D : Type) (r : request D) (k : outcome D -> prog).

Arguments Await {D} r k.

Notation "c ;; k" := (c k) (at level 61, right associativity, only parsing).

(** [p] followed by [q]: what [try { p } finally { q }] is when nothing in
    [p] throws past its own [catch]. *)
Fixpoint andThen (p q : prog) : prog :=
  match p with
  | Done => q
  | SetContent u k => SetContent u (andThen k q)
  | SetFormData u k => SetFormData u (andThen k q)
  | SetLoading b k => SetLoading b (andThen k q)
  | SetMessage m k => SetMessage m (andThen k q)
  | SetServerStatus m k => SetServerStatus m (andThen k q)
  | SetImageInput v k => SetImageInput v (andThen k q)
  | Await r k => Await r (fun o => andThen (k o) q)
  end.

Definition checkServerHealth : prog :=
  Await GetHealth (fun o =>
    match o with
    | Resolved response =>
        if body_success (resp_data response)
        then SetServerStatus CONNECTED ;; Done
        else Done
    | Rejected error => SetServerStatus DISCONNECTED ;; Done
    end).

Definition fetchContent : prog :=
  Await GetContent (fun o =>
    match o with
    | Resolved response =>
        if body_success (resp_data response)
        then SetContent (fun _ => body_data (resp_data response)) ;;
             SetMessage "" ;; Done
        else SetMessage ("Server error: " ++
               Js.or_else (body_message (resp_data response)) "Unknown error") ;;
             Done
    | Rejected error =>
        match err_response error with
        | Some r =>
            SetMessage ("Error: " ++ Js.show (er_status r) ++ " - " ++
                        er_statusText r) ;; Done
        | None =>
            if err_request error
            then SetMessage CANNOT_CONNECT ;; Done
            else SetMessage ("Error: " ++ err_message error) ;; Done
        end
    end).

(** The two inputs whose [onChange] is [handleInputChange], by their
    [name] attribute. *)
Inductive input_name : Type :=
| NameTitle
| NameDescription.

Definition handleInputChange (name : input_name) (value : string) : prog :=
  SetFormData (fun prev =>
    match name with
    | NameTitle => mkDraft value (fd_description prev) (fd_image prev)
    | NameDescription => mkDraft (fd_title prev) value (fd_image prev)
    end) ;; Done.

(** [files] is [e.target.files]; [files[0]] is [undefined] when it is
    empty. *)
Definition handleFileChange (files : list File) : prog :=
  SetFormData (fun prev =>
    mkDraft (fd_title prev) (fd_description prev)
            match files with
            | f :: _ => ImgFile f
            | [] => ImgUndefined
            end) ;; Done.

(** [error.response?.data?.message] *)
Definition server_message (error : js_error) : option string :=
  match err_response error with
  | Some r => er_message r
  | None => None
  end.

(** [const data = new FormData()] after its three [data.append]. *)
Definition multipart (formData : FormDraft) : list (string * part) :=
  [("title", PText (fd_title formData));
   ("description", PText (fd_description formData));
   ("image", append_image (fd_image formData))].

(** [formData] is the draft of the render the handler closes over. *)
Definition handleSubmit (formData : FormDraft) : prog :=
  if negb (Js.truthy (fd_title formData))
     || negb (Js.truthy (fd_description formData))
     || negb (image_truthy (fd_image formData))
  then SetMessage VALIDATION_MESSAGE ;; Done
  else
    SetLoading true ;;
    SetMessage "" ;;
    andThen
      (Await (PostContent (multipart formData))
         (fun o =>
            match o with
            | Resolved response =>
                if body_success (resp_data response)
                then SetMessage "✅ Content added successfully!" ;;
                     SetFormData (fun _ => empty_draft) ;;
                     SetImageInput "" ;;
                     SetContent (fun prevContent =>
                       body_data (resp_data response) :: prevContent) ;;
                     Done
                else Done
            | Rejected error =>
                SetMessage ("❌ Error adding content: " ++
                  Js.or_else (server_message error) (err_message error)) ;;
                Done
            end))
      (SetLoading false ;; Done).

Definition CONFIRM_QUESTION : string :=
  "Are you sure you want to delete this item?".

(** [confirm] is [window.confirm]: the answer the user gives to the
    dialog. *)
Definition handleDelete (confirm : string -> bool) (i : ident) : prog :=
  if confirm CONFIRM_QUESTION
  then
    Await (DeleteContent i) (fun o =>
      match o with
      | Resolved response =>
          if body_success (resp_data response)
          then SetMessage "✅ Content deleted successfully!" ;;
               SetContent (fun prevContent =>
                 filter (fun item => negb (strict_eq (id item) i)) prevContent) ;;
               Done
          else Done
      | Rejected error =>
          SetMessage ("❌ Error deleting content: " ++ err_message error) ;; Done
      end)
  else Done.

(** The submit button: [disabled={loading}]. *)
Definition submit_disabled (s : state) : bool := loading s.

(** ** The event loop *)

(** A handler suspended at its [await]: the request in flight and what
    runs when it settles. *)
Record pending : Type := mkPending {
  p_D : Type;
  p_req : request p_D;
  p_k : outcome p_D -> prog
}.

(** Runs [p] from [s] to its end or to its [await]: the state reached and
    the request sent, if one was. *)
Fixpoint run (p : prog) (s : state) : state * option pending :=
  match p with
  | Done => (s, None)
  | SetContent u k => run k (set_content u s)
  | SetFormData u k => run k (set_formData u s)
  | SetLoading b k => run k (set_loading b s)
  | SetMessage m k => run k (set_message m s)
  | SetServerStatus m k => run k (set_serverStatus m s)
  | SetImageInput v k => run k (set_imageInput v s)
  | Await r k => (s, Some (mkPending r k))
  end.

(** The requests a run sends: none or one. *)
Definition sent (r : state * option pending) : list pending :=
  match snd r with
  | Some p => [p]
  | None => []
  end.

(** The page: what is displayed and the requests in flight. *)
Record system : Type := mkSystem {
  view : state;
  inflight : list pending
}.

Definition dispatch (p : prog) (sys : system) : system :=
  let r := run p (view sys) in
  mkSystem (fst r) (inflight sys ++ sent r).

(** [useEffect(() => { checkServerHealth(); fetchContent(); }, [])] on the
    first render. *)
Definition mounted : system :=
  dispatch fetchContent (dispatch checkServerHealth (mkSystem initial_state [])).

Inductive event : Type :=
| InputChange (name : input_name) (value : string)
| FileChange (files : list File) (value : string)
| Submit
| Refresh
| DeleteClick (i : ident) (answer : bool).

(** What the rendered page lets the user do: the form cannot be submitted
    while its button is disabled, and a delete button exists for each
    displayed item. *)
Definition enabled (e : event) (s : state) : bool :=
  match e with
  | Submit => negb (submit_disabled s)
  | DeleteClick i _ => existsb (fun item => strict_eq (id item) i) (content s)
  | _ => true
  end.

(** The handler the JSX wires to each event, closed over the state of the
    current render.  The browser has put [value] into the file input before
    its change event fires. *)
Definition handler (e : event) (s : state) : prog :=
  match e with
  | InputChange name value => handleInputChange name value
  | FileChange files value => SetImageInput value ;; handleFileChange files
  | Submit => handleSubmit (formData s)
  | Refresh => fetchContent
  | DeleteClick i answer => handleDelete (fun _ => answer) i
  end.

Definition is_create (p : pending) : bool :=
  match p_req p with
  | PostContent _ => true
  | _ => false
  end.

Definition creates_in_flight (sys : system) : nat :=
  List.length (filter is_create (inflight sys)).

Inductive label : Type :=
| User (e : event)
| Settles (p : pending) (o : outcome (p_D p)).

Inductive step : system -> label -> system -> Prop :=
| step_user (e : event) (sys : system) :
    enabled e (view sys) = true ->
    step sys (User e) (dispatch (handler e (view sys)) sys)
| step_settles (s : state) (before after : list pending)
               (p : pending) (o : outcome (p_D p)) :
    step (mkSystem s (before ++ p :: after)) (Settles p o)
         (dispatch (p_k p o) (mkSystem s (before ++ after))).

Inductive reachable : system -> Prop :=
| reach_mounted : reachable mounted
| reach_step (sys sys' : system) (l : label) :
    reachable sys -> step sys l sys' -> reachable sys'.

(** The programs the component ever starts: the two of the mount effect
    and the handler of each event. *)
Inductive started : prog -> Prop :=
| started_health : started checkServerHealth
| started_handler (e : event) (s : state) : started (handler e s).

(** A request in flight was sent by a program the component started. *)
Definition sent_by_component (p : pending) : Prop :=
  exists q s, started q /\ snd (run q s) = Some p.

(** ** Vocabulary of the properties *)

(** A draft with a field missing: an empty title, an empty description, or
    no file ([null], or [undefined] after a cancelled selection). *)
Definition missing_field (d : FormDraft) : Prop :=
  fd_title d = "" \/ fd_description d = "" \/
  fd_image d = ImgNull \/ fd_image d = ImgUndefined.

Definition all_present (d : FormDraft) : Prop :=
  fd_title d <> "" /\ fd_description d <> "" /\ exists f, fd_image d = ImgFile f.

(** [kept_in_order x l l']: [l'] is [l] without its items of identifier [x],
    the others in the order they had. *)
Inductive kept_in_order (x : ident) : list ContentItem -> list ContentItem -> Prop :=
| kept_nil : kept_in_order x [] []
| kept_drop (item : ContentItem) (l l' : list ContentItem) :
    id item = x -> kept_in_order x l l' -> kept_in_order x (item :: l) l'
| kept_keep (item : ContentItem) (l l' : list ContentItem) :
    id item <> x -> kept_in_order x l l' ->
    kept_in_order x (item :: l) (item :: l').

(** Whether a settled request succeeded: it resolved and [success] is
    truthy.  A rejection and a false [success] both give [false]. *)
Definition succeeded {D : Type} (o : outcome D) : bool :=
  match o with
  | Resolved r => body_success (resp_data r)
  | Rejected _ => false
  end.

(** The three shapes of a rejected request, told apart the way the
    [catch] of [fetchContent] does: [error.response] first, then
    [error.request]. *)
Inductive failure_shape : Type :=
| ServerStatus (status : Z) (statusText : string)
| NoResponse
| ClientError (text : string).

Definition shape_of (error : js_error) : failure_shape :=
  match err_response error with
  | Some r => ServerStatus (er_status r) (er_statusText r)
  | None => if err_request error then NoResponse
            else ClientError (err_message error)
  end.

(** How one step of the page may change the displayed list: not at all,
    or as one of the three successful settlements does. *)
Inductive list_update (old : list ContentItem) : label -> list ContentItem -> Prop :=
| update_none (l : label) : list_update old l old
| update_fetch (k : outcome (list ContentItem) -> prog)
               (resp : response (list ContentItem)) :
    body_success (resp_data resp) = true ->
    list_update old (Settles (mkPending GetContent k) (Resolved resp))
                (body_data (resp_data resp))
| update_create (form : list (string * part)) (k : outcome ContentItem -> prog)
                (resp : response ContentItem) :
    body_success (resp_data resp) = true ->
    list_update old (Settles (mkPending (PostContent form) k) (Resolved resp))
                (body_data (resp_data resp) :: old)
| update_delete (x : ident) (k : outcome unit -> prog) (resp : response unit) :
    body_success (resp_data resp) = true ->
    list_update old (Settles (mkPending (DeleteContent x) k) (Resolved resp))
                (filter (fun item => negb (strict_eq (id item) x)) old).

(** What holds of every page the component can reach: each request in
    flight is one a handler sent, and the loading flag counts the create
    requests in flight. *)
Definition page_invariant (sys : system) : Prop :=
  Forall sent_by_component (inflight sys) /\
  creates_in_flight sys = if loading (view sys) then 1%nat else 0%nat.

(** ** What the page renders *)

(** [s.includes(t)] *)
Fixpoint includes (s t : string) : bool :=
  if String.prefix t s then true
  else match s with
       | EmptyString => false
       | String _ rest => includes rest t
       end.

(** The message banner of the form section:
    [{message && <div className={`message ${...}`}>{message}</div>}]. *)
Record banner : Type := mkBanner {
  banner_class : string;
  banner_text : string
}.

Definition message_banner (s : state) : option banner :=
  if Js.truthy (message s)
  then Some (mkBanner
               ("message " ++
                (if includes (message s) "✅" then "success" else "error"))
               (message s))
  else None.

(** The body of the list section: the "No content yet" block with its
    connection help when [content.length === 0], otherwise the grid with
    one card per item in list order.  What a card shows of its item is not
    modelled. *)
Inductive section_body : Type :=
| NoContent
| ContentGrid (items : list ContentItem).

Definition content_body (s : state) : section_body :=
  if (List.length (content s) =? 0)%nat then NoContent
  else ContentGrid (content s).

(** ** More vocabulary *)

(** A multipart payload that went through the guard of [handleSubmit]: a
    non-empty title, a non-empty description and a file, in that order. *)
Definition validated_form (form : list (string * part)) : Prop :=
  exists t d f,
    t <> "" /\ d <> "" /\
    form = [("title", PText t); ("description", PText d); ("image", PBlob f)].

Definition create_payload_ok (p : pending) : Prop :=
  match p_req p with
  | PostContent form => validated_form form
  | _ => True
  end.

Definition is_health (p : pending) : bool :=
  match p_req p with
  | GetHealth => true
  | _ => false
  end.

Definition health_in_flight (sys : system) : nat :=
  List.length (filter is_health (inflight sys)).

Definition status_known (st : string) : Prop :=
  st = "checking..." \/ st = CONNECTED \/ st = DISCONNECTED.

(** The status line of a reachable page: one of the three labels, and
    still "checking..." as long as the probe of the mount effect, the only
    one there is, has not settled. *)
Definition status_invariant (sys : system) : Prop :=
  status_known (serverStatus (view sys)) /\
  (health_in_flight sys <= 1)%nat /\
  (health_in_flight sys = 1%nat -> serverStatus (view sys) = "checking...").

(** ** Basic facts *)

Lemma truthy_nonempty (s : string) : Js.truthy s = true <-> s <> "".
Proof.
  unfold Js.truthy. destruct (String.eqb_spec s ""); simpl; split; congruence.
Qed.

Lemma strict_eq_spec (a b : ident) : reflect (a = b) (strict_eq a b).
Proof.
  destruct a as [n|s], b as [m|t]; simpl; try (constructor; discriminate).
  - destruct (Z.eqb_spec n m); constructor; congruence.
  - destruct (String.eqb_spec s t); constructor; congruence.
Qed.

Lemma missing_or_present (d : FormDraft) : missing_field d \/ all_present d.
Proof.
  unfold missing_field, all_present.
  destruct d as [t de im]; simpl.
  destruct (string_dec t "") as [?|Ht]; [left; now left|].
  destruct (string_dec de "") as [?|Hd]; [left; right; now left|].
  destruct im as [| |f].
  - left. right. right. now left.
  - left. right. right. now right.
  - right. repeat split; trivial. now exists f.
Qed.

Lemma guard_missing (d : FormDraft) :
  missing_field d ->
  negb (Js.truthy (fd_title d)) || negb (Js.truthy (fd_description d))
  || negb (image_truthy (fd_image d)) = true.
Proof.
  unfold missing_field, Js.truthy.
  intros [H|[H|[H|H]]]; rewrite H; simpl;
    repeat rewrite ?orb_true_r, ?orb_true_l; reflexivity.
Qed.

Lemma guard_present (d : FormDraft) :
  all_present d ->
  negb (Js.truthy (fd_title d)) || negb (Js.truthy (fd_description d))
  || negb (image_truthy (fd_image d)) = false.
Proof.
  intros (Ht & Hd & f & Hf).
  apply truthy_nonempty in Ht, Hd. rewrite Ht, Hd, Hf. reflexivity.
Qed.

Lemma filter_kept_in_order (x : ident) (l : list ContentItem) :
  kept_in_order x l (filter (fun item => negb (strict_eq (id item) x)) l).
Proof.
  induction l as [|item l IH]; simpl.
  - constructor.
  - destruct (strict_eq_spec (id item) x); simpl.
    + now apply kept_drop.
    + now apply kept_keep.
Qed.

(** ** The claims *)

(** C1: a draft with title, description or image missing makes
    [handleSubmit] send no request, leave the content list and the draft as
    they were and display the validation message; and whenever
    [handleSubmit] does send a request, all three fields were present. *)
Theorem submit_missing_field_no_request (s : state) :
  let r := run (handler Submit s) s in
  (missing_field (formData s) ->
     sent r = [] /\
     content (fst r) = content s /\
     formData (fst r) = formData s /\
     message (fst r) = VALIDATION_MESSAGE) /\
  (sent r <> [] -> all_present (formData s)).
Proof.
  simpl. unfold handleSubmit. split.
  - intros H. rewrite (guard_missing H). simpl. repeat split.
  - intros H. destruct (missing_or_present (formData s)) as [Hm|Hp]; trivial.
    rewrite (guard_missing Hm) in H. now elim H.
Qed.

Lemma submit_missing_field_no_request_witness :
  let s := mkState [] (mkDraft "B" "" ImgNull) false "" "checking..." "" in
  let r := run (handler Submit s) s in
  missing_field (formData s) /\
  sent r = [] /\ content (fst r) = [] /\
  formData (fst r) = mkDraft "B" "" ImgNull /\
  message (fst r) = "Please fill all fields and select an image".
Proof.
  intros s r.
  assert (H : missing_field (formData s)) by (right; left; reflexivity).
  split; [exact H|].
  exact (proj1 (submit_missing_field_no_request s) H).
Defined.

(** C2: the continuation of a create request that passed validation, run
    on any prior state with a response whose success flag is true and whose
    item is [R], yields the list [R :: prior] and the empty draft (empty
    title, empty description, no image), empties the file input and sends
    nothing more. *)
Theorem create_success_prepends (d : FormDraft) (s0 : state) :
  all_present d ->
  exists k,
    snd (run (handleSubmit d) s0)
      = Some (mkPending (PostContent (multipart d)) k) /\
    forall (s : state) (resp : response ContentItem),
      body_success (resp_data resp) = true ->
      let r := run (k (Resolved resp)) s in
      content (fst r) = body_data (resp_data resp) :: content s /\
      formData (fst r) = mkDraft "" "" ImgNull /\
      imageInput (fst r) = "" /\
      sent r = [].
Proof.
  intros Hd. unfold handleSubmit. rewrite (guard_present Hd). simpl.
  eexists. split; [reflexivity|].
  intros s resp Hok. simpl. rewrite Hok. simpl. repeat split.
Qed.

Lemma create_success_prepends_witness :
  let d := mkDraft "B" "d" (ImgFile (mkFile "b.png" "PNG")) in
  all_present d /\
  exists k,
    snd (run (handleSubmit d) initial_state)
      = Some (mkPending (PostContent (multipart d)) k) /\
    forall (s : state) (resp : response ContentItem),
      body_success (resp_data resp) = true ->
      let r := run (k (Resolved resp)) s in
      content (fst r) = body_data (resp_data resp) :: content s /\
      formData (fst r) = mkDraft "" "" ImgNull /\
      imageInput (fst r) = "" /\
      sent r = [].
Proof.
  intros d.
  assert (H : all_present d).
  { repeat split; try discriminate. eexists; reflexivity. }
  split; [exact H|].
  exact (create_success_prepends initial_state H).
Defined.

Lemma filter_drops_ident (x : ident) (l : list ContentItem) (item : ContentItem) :
  In item (filter (fun item => negb (strict_eq (id item) x)) l) -> id item <> x.
Proof.
  intros H. apply filter_In in H. destruct H as [_ H].
  destruct (strict_eq_spec (id item) x); [discriminate|assumption].
Qed.

(** C3: the continuation of a confirmed delete of [x], run on any list
    with a response whose success flag is true, yields a list with no item
    of identifier [x] in which every other item is kept in its original
    relative order. *)
Theorem delete_success_removes (confirm : string -> bool) (x : ident) (s0 : state) :
  confirm CONFIRM_QUESTION = true ->
  exists k,
    snd (run (handleDelete confirm x) s0)
      = Some (mkPending (DeleteContent x) k) /\
    forall (s : state) (resp : response unit),
      body_success (resp_data resp) = true ->
      let r := run (k (Resolved resp)) s in
      (forall item, In item (content (fst r)) -> id item <> x) /\
      kept_in_order x (content s) (content (fst r)) /\
      sent r = [].
Proof.
  intros Hc. unfold handleDelete. rewrite Hc. simpl.
  eexists. split; [reflexivity|].
  intros s resp Hok. simpl. rewrite Hok. simpl. split; [|split].
  - intros item. apply filter_drops_ident.
  - apply filter_kept_in_order.
  - reflexivity.
Qed.

Lemma delete_success_removes_witness :
  (fun _ : string => true) CONFIRM_QUESTION = true /\
  exists k,
    snd (run (handleDelete (fun _ => true) (IdNum 1)) initial_state)
      = Some (mkPending (DeleteContent (IdNum 1)) k) /\
    forall (s : state) (resp : response unit),
      body_success (resp_data resp) = true ->
      let r := run (k (Resolved resp)) s in
      (forall item, In item (content (fst r)) -> id item <> IdNum 1) /\
      kept_in_order (IdNum 1) (content s) (content (fst r)) /\
      sent r = [].
Proof.
  split; [reflexivity|].
  exact (@delete_success_removes (fun _ => true) (IdNum 1) initial_state eq_refl).
Defined.

(** C7: the continuation of a list fetch, run on any prior list and any
    prior message with a response whose success flag is true and whose data
    is [D], yields exactly [D] as the list and the empty message. *)
Theorem fetch_success_replaces (s0 : state) :
  exists k,
    snd (run fetchContent s0) = Some (mkPending GetContent k) /\
    forall (s : state) (resp : response (list ContentItem)),
      body_success (resp_data resp) = true ->
      let r := run (k (Resolved resp)) s in
      content (fst r) = body_data (resp_data resp) /\
      message (fst r) = "" /\
      sent r = [].
Proof.
  unfold fetchContent. simpl. eexists. split; [reflexivity|].
  intros s resp Hok. simpl. rewrite Hok. simpl. repeat split.
Qed.

Lemma fetch_success_replaces_witness :
  let item := mkItem (IdNum 2) "B" "d" None "2024-01-01" in
  let resp := mkResponse 200 "OK" (mkBody true [item] None) in
  let s := mkState [] empty_draft false "Error: 500 - Down" CONNECTED "" in
  body_success (resp_data resp) = true /\
  exists k,
    snd (run fetchContent initial_state) = Some (mkPending GetContent k) /\
    content (fst (run (k (Resolved resp)) s)) = [item] /\
    message (fst (run (k (Resolved resp)) s)) = "".
Proof.
  intros item resp s. split; [reflexivity|].
  destruct (fetch_success_replaces initial_state) as (k & Hk & H).
  exists k. split; [exact Hk|].
  destruct (H s resp eq_refl) as (Hc & Hm & _).
  split; [exact Hc | exact Hm].
Defined.

(** C4, as the code has it: the continuation of a list fetch, run on any
    prior list with an outcome that is not a success (rejected with an
    error status, with no response, or with any other error, or resolved
    with a false success flag), leaves the list as it was and sets a
    non-empty message.  The message has one form for each shape of a
    rejection: status and status text for an error status, a fixed sentence
    for no response, the error text for anything else.  The sentence for no
    response is the message of no other shape; the messages for an error
    status and for another error are the same exactly when the error text
    itself spells that status and status text. *)
Theorem fetch_failure_reports (s0 : state) :
  exists k,
    snd (run fetchContent s0) = Some (mkPending GetContent k) /\
    (forall (s : state) (o : outcome (list ContentItem)),
       succeeded o = false ->
       let r := run (k o) s in
       content (fst r) = content s /\
       message (fst r) <> "" /\
       sent r = [] /\
       match o with
       | Resolved resp =>
           message (fst r) = "Server error: " ++
             Js.or_else (body_message (resp_data resp)) "Unknown error"
       | Rejected error =>
           match shape_of error with
           | ServerStatus status statusText =>
               message (fst r)
                 = "Error: " ++ Js.show status ++ " - " ++ statusText
           | NoResponse =>
               message (fst r)
                 = "Cannot connect to server. Make sure backend is running on port 2148!"
           | ClientError text => message (fst r) = "Error: " ++ text
           end
       end) /\
    (forall (s s' : state) (e e' : js_error),
       let m := message (fst (run (k (Rejected e)) s)) in
       let m' := message (fst (run (k (Rejected e')) s')) in
       (shape_of e = NoResponse -> shape_of e' <> NoResponse -> m <> m') /\
       (forall status statusText text,
          shape_of e = ServerStatus status statusText ->
          shape_of e' = ClientError text ->
          (m = m' <-> text = Js.show status ++ " - " ++ statusText))).
Proof.
  unfold fetchContent. simpl. eexists. split; [reflexivity|]. split.
  - intros s [resp|error] Hfail; simpl in Hfail |- *.
    + rewrite Hfail. simpl. repeat split. discriminate.
    + unfold shape_of.
      destruct (err_response error) as [er|]; simpl.
      * repeat split. discriminate.
      * destruct (err_request error); simpl; repeat split; discriminate.
  - intros s s' e e'. unfold shape_of. split.
    + destruct (err_response e) as [er|]; [discriminate|].
      destruct (err_request e); [|discriminate]. intros _.
      destruct (err_response e') as [er'|]; simpl.
      * intros _. discriminate.
      * destruct (err_request e'); simpl; [congruence|]. intros _. discriminate.
    + intros status statusText text.
      destruct (err_response e) as [er|];
        [|destruct (err_request e); discriminate].
      intros He. injection He as <- <-.
      destruct (err_response e') as [er'|]; [discriminate|].
      destruct (err_request e'); [discriminate|].
      intros He'. injection He' as <-. simpl. split.
      * intros Heq. injection Heq as Heq. symmetry. exact Heq.
      * intros Heq. rewrite Heq. reflexivity.
Qed.

Lemma fetch_failure_reports_witness :
  let item := mkItem (IdNum 1) "A" "a" None "2024-01-01" in
  let s := mkState [item] empty_draft false "" CONNECTED "" in
  let refused := mkError None true "Network Error" in
  succeeded (D := list ContentItem) (Rejected refused) = false /\
  exists k,
    snd (run fetchContent initial_state) = Some (mkPending GetContent k) /\
    content (fst (run (k (Rejected refused)) s)) = [item] /\
    message (fst (run (k (Rejected refused)) s))
      = "Cannot connect to server. Make sure backend is running on port 2148!".
Proof.
  intros item s refused. split; [reflexivity|].
  destruct (fetch_failure_reports initial_state) as (k & Hk & H & _).
  exists k. split; [exact Hk|].
  destruct (H s (Rejected refused) eq_refl) as (Hc & _ & _ & Hm).
  split; [exact Hc | exact Hm].
Defined.

(** C4, against the claim as stated: the message does not always tell an
    error status from another client-side error.  A fetch rejected with
    status 500 "Internal Server Error" and a fetch that failed without
    response or request and with the error text "500 - Internal Server
    Error" display the same message. *)
Lemma fetch_messages_collide :
  let by_status :=
    mkError (Some (mkErrResp 500 "Internal Server Error" None)) true
            "Request failed with status code 500" in
  let by_client := mkError None false "500 - Internal Server Error" in
  exists k,
    snd (run fetchContent initial_state) = Some (mkPending GetContent k) /\
    shape_of by_status = ServerStatus 500 "Internal Server Error" /\
    shape_of by_client = ClientError "500 - Internal Server Error" /\
    message (fst (run (k (Rejected by_status)) initial_state))
      = "Error: 500 - Internal Server Error" /\
    message (fst (run (k (Rejected by_client)) initial_state))
      = "Error: 500 - Internal Server Error".
Proof.
  intros by_status by_client. unfold fetchContent. simpl.
  eexists. split; [reflexivity|]. repeat split.
Qed.

(** What the health probe does on each outcome: its continuation sets the
    status to the connected indicator when the response carries a true
    success flag and to the disconnected indicator when the request is
    rejected, as C5 has it; a response whose success flag is false, for
    which the handler has no branch, leaves the status as it was.  Nothing
    but the status changes. *)
Theorem health_probe_status (s0 : state) :
  exists k,
    snd (run checkServerHealth s0) = Some (mkPending GetHealth k) /\
    forall (s : state) (o : outcome unit),
      let r := run (k o) s in
      sent r = [] /\
      match o with
      | Resolved resp =>
          if body_success (resp_data resp)
          then fst r = set_serverStatus CONNECTED s
          else fst r = s
      | Rejected _ => fst r = set_serverStatus DISCONNECTED s
      end.
Proof.
  unfold checkServerHealth. simpl. eexists. split; [reflexivity|].
  intros s [resp|error]; simpl.
  - destruct (body_success (resp_data resp)); simpl; split; reflexivity.
  - split; reflexivity.
Qed.

(** C5, where the code falls short of the claim: on the freshly mounted
    page a health response with a false success flag leaves the status at
    "checking...", which is not the disconnected indicator. *)
Lemma health_success_false_keeps_status :
  exists k,
    snd (run checkServerHealth initial_state) = Some (mkPending GetHealth k) /\
    let resp := mkResponse 200 "OK" (mkBody false tt (Some "degraded")) in
    serverStatus (fst (run (k (Resolved resp)) initial_state)) = "checking..." /\
    serverStatus (fst (run (k (Resolved resp)) initial_state)) <> DISCONNECTED.
Proof.
  unfold checkServerHealth. simpl. eexists. split; [reflexivity|].
  simpl. split; [reflexivity|discriminate].
Qed.

(** C6, where the code falls short of the claim: a create request that the
    server answers with a false success flag and a message of its own ends
    with the loading flag down and the displayed message empty; the
    server's message is not shown. *)
Theorem create_success_false_shows_nothing :
  let d := mkDraft "B" "d" (ImgFile (mkFile "b.png" "PNG")) in
  let s0 := mkState [] d false "old message" CONNECTED "b.png" in
  let resp := mkResponse 200 "OK"
                (mkBody false (mkItem (IdNum 0) "" "" None "")
                        (Some "Title already exists")) in
  exists s1 k,
    run (handleSubmit d) s0
      = (s1, Some (mkPending (PostContent (multipart d)) k)) /\
    message (fst (run (k (Resolved resp)) s1)) = "" /\
    fst (run (k (Resolved resp)) s1) = set_loading false s1.
Proof.
  intros d s0 resp. unfold handleSubmit. simpl.
  eexists. eexists. split; [reflexivity|]. split; reflexivity.
Qed.

(** The part of C6 the code does: a rejected create request displays the
    server's message when the response body has one and the error text
    otherwise; a response with a false success flag changes only the
    loading flag. *)
Lemma create_failure_message (d : FormDraft) (s0 : state) :
  all_present d ->
  exists k,
    snd (run (handleSubmit d) s0)
      = Some (mkPending (PostContent (multipart d)) k) /\
    (forall (s : state) (error : js_error),
       message (fst (run (k (Rejected error)) s))
         = "❌ Error adding content: " ++
           match server_message error with
           | Some m => if Js.truthy m then m else err_message error
           | None => err_message error
           end) /\
    (forall (s : state) (resp : response ContentItem),
       body_success (resp_data resp) = false ->
       fst (run (k (Resolved resp)) s) = set_loading false s).
Proof.
  intros Hd. unfold handleSubmit. rewrite (guard_present Hd). simpl.
  eexists. split; [reflexivity|]. split.
  - intros s error. reflexivity.
  - intros s resp Hno. simpl. rewrite Hno. reflexivity.
Qed.

(** C10: when the user declines the confirmation, [handleDelete] sends no
    request and leaves the whole state as it was: the content list, the
    message, the draft and the loading flag keep their values. *)
Theorem delete_declined_changes_nothing
        (confirm : string -> bool) (x : ident) (s : state) :
  confirm CONFIRM_QUESTION = false ->
  let r := run (handleDelete confirm x) s in
  sent r = [] /\
  fst r = s /\
  content (fst r) = content s /\
  message (fst r) = message s /\
  formData (fst r) = formData s /\
  loading (fst r) = loading s.
Proof.
  intros Hc. unfold handleDelete. rewrite Hc. simpl. repeat split.
Qed.

Lemma delete_declined_changes_nothing_witness :
  let item := mkItem (IdNum 1) "A" "a" None "2024-01-01" in
  let s := mkState [item] (mkDraft "t" "" ImgNull) true "msg" CONNECTED "" in
  let r := run (handler (DeleteClick (IdNum 1) false) s) s in
  (fun _ : string => false) CONFIRM_QUESTION = false /\
  sent r = [] /\ fst r = s.
Proof.
  intros item s r. split; [reflexivity|].
  destruct (@delete_declined_changes_nothing (fun _ => false) (IdNum 1) s eq_refl)
    as (H1 & H2 & _).
  split; [exact H1 | exact H2].
Defined.

(** ** The page as a whole *)

(** What the continuation of any request of the component does when it
    settles: it sends nothing more, it lowers the loading flag exactly when
    the request was a create, and it changes the list only as the three
    successful settlements do. *)
Lemma settle_facts (p : pending) :
  sent_by_component p ->
  forall (o : outcome (p_D p)) (s : state),
    let r := run (p_k p o) s in
    snd r = None /\
    loading (fst r) = (if is_create p then false else loading s) /\
    list_update (content s) (Settles p o) (content (fst r)) /\
    (succeeded o = false -> content (fst r) = content s).
Proof.
  intros (q & s0 & Hq & Hp).
  destruct Hq as [|e s1].
  - simpl in Hp. injection Hp as Hp. subst p.
    intros o s. simpl in o |- *.
    destruct o as [resp|error]; simpl.
    + destruct (body_success (resp_data resp)); simpl;
        repeat split; constructor.
    + repeat split; constructor.
  - destruct e as [name value|files value| | |x answer]; simpl in Hp;
      try discriminate.
    + unfold handleSubmit in Hp.
      destruct (negb (Js.truthy (fd_title (formData s1)))
                || negb (Js.truthy (fd_description (formData s1)))
                || negb (image_truthy (fd_image (formData s1))));
        simpl in Hp; [discriminate|].
      injection Hp as Hp. subst p.
      intros o s. simpl in o |- *.
      destruct o as [resp|error]; simpl.
      * destruct (body_success (resp_data resp)) eqn:Hok; simpl.
        -- repeat split; [|discriminate]. now apply update_create.
        -- repeat split; constructor.
      * repeat split; constructor.
    + injection Hp as Hp. subst p.
      intros o s. simpl in o |- *.
      destruct o as [resp|error]; simpl.
      * destruct (body_success (resp_data resp)) eqn:Hok; simpl.
        -- repeat split; [|discriminate]. now apply update_fetch.
        -- repeat split; constructor.
      * destruct (err_response error); simpl;
          [|destruct (err_request error); simpl]; repeat split; constructor.
    + unfold handleDelete in Hp. destruct answer; simpl in Hp; [|discriminate].
      injection Hp as Hp. subst p.
      intros o s. simpl in o |- *.
      destruct o as [resp|error]; simpl.
      * destruct (body_success (resp_data resp)) eqn:Hok; simpl.
        -- repeat split; [|discriminate]. now apply update_delete.
        -- repeat split; constructor.
      * repeat split; constructor.
Qed.

(** What the synchronous part of any handler does: it never touches the
    list, and it raises the loading flag exactly when it sends a create
    request. *)
Lemma user_facts (e : event) (s : state) :
  enabled e s = true ->
  let r := run (handler e s) s in
  content (fst r) = content s /\
  (List.length (filter is_create (sent r)) + (if loading s then 1 else 0)
   = if loading (fst r) then 1 else 0)%nat.
Proof.
  destruct e as [name value|files value| | |x answer]; simpl; intros He.
  - split; reflexivity.
  - split; reflexivity.
  - unfold submit_disabled in He. apply negb_true_iff in He.
    unfold handleSubmit.
    destruct (negb (Js.truthy (fd_title (formData s)))
              || negb (Js.truthy (fd_description (formData s)))
              || negb (image_truthy (fd_image (formData s)))); simpl.
    + split; reflexivity.
    + rewrite He. split; reflexivity.
  - split; [reflexivity|]. destruct (loading s); reflexivity.
  - unfold handleDelete. destruct answer; simpl; split; trivial;
      destruct (loading s); reflexivity.
Qed.

Lemma sent_by_started (q : prog) (s : state) :
  started q -> Forall sent_by_component (sent (run q s)).
Proof.
  intros Hq. unfold sent. destruct (snd (run q s)) as [p|] eqn:Hp.
  - constructor; [|constructor]. now exists q, s.
  - constructor.
Qed.

Lemma creates_app (l l' : list pending) :
  List.length (filter is_create (l ++ l'))
  = (List.length (filter is_create l) + List.length (filter is_create l'))%nat.
Proof. now rewrite filter_app, length_app. Qed.

Lemma invariant_mounted : page_invariant mounted.
Proof.
  split.
  - unfold mounted, dispatch. simpl.
    repeat constructor.
    + exists checkServerHealth, initial_state. split; [constructor|reflexivity].
    + exists (handler Refresh initial_state), initial_state.
      split; [constructor|reflexivity].
  - reflexivity.
Qed.

Lemma invariant_step (sys sys' : system) (l : label) :
  page_invariant sys -> step sys l sys' -> page_invariant sys'.
Proof.
  intros Hinv Hstep. revert Hinv.
  destruct Hstep as [e sys He|s before after p o]; intros [Hall Hcount].
  - destruct (user_facts e (view sys) He) as [_ Hload].
    split.
    + unfold dispatch. simpl. apply Forall_app. split; [exact Hall|].
      apply sent_by_started. constructor.
    + unfold creates_in_flight, dispatch in *. simpl.
      rewrite creates_app, <- Hload.
      simpl in Hcount. rewrite Hcount. lia.
  - simpl in Hall. apply Forall_app in Hall. destruct Hall as [Hb Hpa].
    inversion Hpa as [|p' l' Hp Ha]; subst.
    destruct (settle_facts Hp o s) as (Hnone & Hload & _).
    split.
    + unfold dispatch, sent. simpl. rewrite Hnone.
      rewrite app_nil_r. apply Forall_app. now split.
    + unfold creates_in_flight, dispatch, sent in *. simpl in *.
      rewrite Hnone, app_nil_r, Hload.
      rewrite creates_app in Hcount |- *. simpl in Hcount.
      destruct (is_create p); simpl in Hcount.
      * destruct (loading s); lia.
      * exact Hcount.
Qed.

Lemma reachable_invariant (sys : system) : reachable sys -> page_invariant sys.
Proof.
  induction 1 as [|sys sys' l _ IH Hstep].
  - exact invariant_mounted.
  - exact (invariant_step IH Hstep).
Qed.

(** C8: a submit that passes validation raises the loading flag before its
    request is sent, so the page shows a disabled button while the request
    is in flight, and the continuation lowers the flag on every outcome:
    success, a false success flag, or a rejection.  On every page the
    component can reach, the button is disabled exactly when a create
    request is in flight, and there is never more than one. *)
Theorem loading_brackets_create :
  (forall (d : FormDraft) (s0 : state),
     all_present d ->
     exists s1 k,
       run (handleSubmit d) s0
         = (s1, Some (mkPending (PostContent (multipart d)) k)) /\
       loading s1 = true /\
       submit_disabled s1 = true /\
       forall (o : outcome ContentItem) (s : state),
         let r := run (k o) s in
         loading (fst r) = false /\
         submit_disabled (fst r) = false /\
         sent r = []) /\
  (forall sys : system,
     reachable sys ->
     creates_in_flight sys
       = if submit_disabled (view sys) then 1%nat else 0%nat).
Proof.
  split.
  - intros d s0 Hd. unfold handleSubmit. rewrite (guard_present Hd). simpl.
    eexists. eexists. split; [reflexivity|]. split; [reflexivity|].
    split; [reflexivity|].
    intros [resp|error] s; simpl.
    + destruct (body_success (resp_data resp)); simpl; repeat split.
    + repeat split.
  - intros sys Hr. exact (proj2 (reachable_invariant Hr)).
Qed.

Lemma loading_brackets_create_witness :
  let d := mkDraft "B" "d" (ImgFile (mkFile "b.png" "PNG")) in
  let sys1 := dispatch (handler (InputChange NameTitle "B") (view mounted)) mounted in
  let sys2 := dispatch (handler (InputChange NameDescription "d") (view sys1)) sys1 in
  let sys3 := dispatch (handler (FileChange [mkFile "b.png" "PNG"] "b.png")
                                (view sys2)) sys2 in
  let sys4 := dispatch (handler Submit (view sys3)) sys3 in
  (all_present d /\ reachable sys4) /\
  (exists s1 k,
     run (handleSubmit d) initial_state
       = (s1, Some (mkPending (PostContent (multipart d)) k)) /\
     loading s1 = true) /\
  creates_in_flight sys4 = 1%nat /\
  submit_disabled (view sys4) = true.
Proof.
  intros d sys1 sys2 sys3 sys4.
  assert (Hd : all_present d).
  { repeat split; try discriminate. eexists; reflexivity. }
  assert (Hr : reachable sys4).
  { apply reach_step with (sys := sys3) (l := User Submit);
      [|apply step_user; reflexivity].
    apply reach_step with (sys := sys2)
                          (l := User (FileChange [mkFile "b.png" "PNG"] "b.png"));
      [|apply step_user; reflexivity].
    apply reach_step with (sys := sys1) (l := User (InputChange NameDescription "d"));
      [|apply step_user; reflexivity].
    apply reach_step with (sys := mounted) (l := User (InputChange NameTitle "B"));
      [|apply step_user; reflexivity].
    exact reach_mounted. }
  split; [split; [exact Hd | exact Hr]|].
  split.
  - destruct (proj1 loading_brackets_create d initial_state Hd)
      as (s1 & k & Hrun & Hl & _).
    exists s1, k. split; [exact Hrun | exact Hl].
  - split.
    + exact (proj2 loading_brackets_create sys4 Hr).
    + reflexivity.
Defined.



(** ** Worked examples *)

Example show_status : Js.show 404 = "404".
Proof. reflexivity. Qed.

(** The list [[{id: 1, title: "A"}]], a confirmed delete of 1 and a
    success response: the displayed list is empty. *)
Example delete_only_item :
  let item := mkItem (IdNum 1) "A" "a" None "2024-01-01" in
  let s := mkState [item] empty_draft false "" CONNECTED "" in
  let ok := mkResponse 200 "OK" (mkBody true tt None) in
  exists k,
    run (handleDelete (fun _ => true) (IdNum 1)) s
      = (s, Some (mkPending (DeleteContent (IdNum 1)) k)) /\
    content (fst (run (k (Resolved ok)) s)) = [].
Proof. simpl. eexists. split; reflexivity. Qed.

(** An identifier is compared without coercion: deleting "1" keeps the
    item whose identifier is the number 1. *)
Example delete_string_ident_keeps_number :
  let item := mkItem (IdNum 1) "A" "a" None "2024-01-01" in
  let s := mkState [item] empty_draft false "" CONNECTED "" in
  let ok := mkResponse 200 "OK" (mkBody true tt None) in
  exists k,
    snd (run (handleDelete (fun _ => true) (IdStr "1")) s)
      = Some (mkPending (DeleteContent (IdStr "1")) k) /\
    content (fst (run (k (Resolved ok)) s)) = [item].
Proof. simpl. eexists. split; reflexivity. Qed.

(** The empty list, the draft [{title: "B", description: "d", image}] and
    the response [{success: true, data: {id: 2, title: "B"}}]: the
    displayed list is that one item, the draft is empty and the button is
    enabled again. *)
Example create_first_item :
  let d := mkDraft "B" "d" (ImgFile (mkFile "b.png" "PNG")) in
  let item := mkItem (IdNum 2) "B" "d" (Some "/uploads/b.png") "2024-01-01" in
  let s0 := mkState [] d false "" CONNECTED "b.png" in
  let ok := mkResponse 201 "Created" (mkBody true item None) in
  exists s1 k,
    run (handleSubmit d) s0
      = (s1, Some (mkPending (PostContent (multipart d)) k)) /\
    submit_disabled s1 = true /\
    fst (run (k (Resolved ok)) s1)
      = mkState [item] empty_draft false "✅ Content added successfully!"
                CONNECTED "".
Proof. simpl. eexists. eexists. repeat split. Qed.

(** A rejected create shows the server's message when the body has one and
    the error text when it has none. *)
Example create_rejected_messages :
  let d := mkDraft "B" "d" (ImgFile (mkFile "b.png" "PNG")) in
  let with_body :=
    mkError (Some (mkErrResp 400 "Bad Request" (Some "Image too large")))
            true "Request failed with status code 400" in
  let refused := mkError None true "Network Error" in
  exists k,
    snd (run (handleSubmit d) initial_state)
      = Some (mkPending (PostContent (multipart d)) k) /\
    message (fst (run (k (Rejected with_body)) initial_state))
      = "❌ Error adding content: Image too large" /\
    message (fst (run (k (Rejected refused)) initial_state))
      = "❌ Error adding content: Network Error".
Proof. simpl. eexists. repeat split. Qed.

(** The mount effect leaves two requests in flight, the health probe and
    the list fetch, and the button enabled. *)
Example mounted_page :
  map (fun p => url (p_req p)) (inflight mounted)
    = ["http://localhost:2148/api/health"; "http://localhost:2148/api/content"] /\
  view mounted = initial_state /\
  submit_disabled (view mounted) = false.
Proof. repeat split. Qed.

(** ** Beyond the claims: the form *)

(** X1: handleInputChange: an edit of one field leaves the other field, the
    image and everything outside the draft as they were and sends nothing;
    so edits of the two fields give the same draft in either order, and of
    two edits of one field the later one stands. *)
Theorem input_edits_compose (v w : string) (s : state) :
  let edit name value st := run (handleInputChange name value) st in
  let title_first := fst (edit NameDescription w (fst (edit NameTitle v s))) in
  let description_first := fst (edit NameTitle v (fst (edit NameDescription w s))) in
  title_first = description_first /\
  title_first
    = mkState (content s) (mkDraft v w (fd_image (formData s)))
              (loading s) (message s) (serverStatus s) (imageInput s) /\
  fst (edit NameTitle w (fst (edit NameTitle v s)))
    = fst (edit NameTitle w s) /\
  fst (edit NameDescription w (fst (edit NameDescription v s)))
    = fst (edit NameDescription w s) /\
  sent (edit NameTitle v s) = [] /\
  sent (edit NameDescription w s) = [].
Proof. simpl. repeat split. Qed.

(** X2: handleFileChange, then handleSubmit: once a file dialog was closed
    without a file, the image of the draft is [undefined], and a submit
    sends nothing and shows the validation message, whatever title and
    description say and whatever file was chosen before. *)
Theorem cancelled_file_blocks_submit (s : state) (value : string) :
  let s1 := fst (run (handler (FileChange [] value) s) s) in
  let r := run (handler Submit s1) s1 in
  fd_image (formData s1) = ImgUndefined /\
  sent r = [] /\
  message (fst r) = VALIDATION_MESSAGE /\
  formData (fst r) = formData s1 /\
  loading (fst r) = loading s.
Proof.
  simpl. unfold handleSubmit. simpl.
  rewrite !orb_true_r. simpl. repeat split.
Qed.

(** X3: handleFileChange, then handleSubmit: of the files selected only the
    first reaches the draft, and with a non-empty title and description the
    next submit sends a request whose three parts are that title, that
    description and that first file, in this order. *)
Theorem first_file_is_uploaded
        (s : state) (f : File) (others : list File) (value : string) :
  fd_title (formData s) <> "" ->
  fd_description (formData s) <> "" ->
  let s1 := fst (run (handler (FileChange (f :: others) value) s) s) in
  exists k,
    snd (run (handler Submit s1) s1)
      = Some (mkPending
                (PostContent [("title", PText (fd_title (formData s)));
                              ("description", PText (fd_description (formData s)));
                              ("image", PBlob f)]) k).
Proof.
  intros Ht Hd. apply truthy_nonempty in Ht, Hd.
  simpl. unfold handleSubmit. simpl. rewrite Ht, Hd. simpl.
  eexists. reflexivity.
Qed.

Lemma first_file_is_uploaded_witness :
  let f := mkFile "a.png" "PNG" in
  let s := mkState [] (mkDraft "A" "a" ImgNull) false "" CONNECTED "" in
  let s1 := fst (run (handler (FileChange [f; mkFile "b.png" "PNG"] "a.png") s) s) in
  (fd_title (formData s) <> "" /\ fd_description (formData s) <> "") /\
  exists k,
    snd (run (handler Submit s1) s1)
      = Some (mkPending
                (PostContent [("title", PText "A"); ("description", PText "a");
                              ("image", PBlob f)]) k).
Proof.
  intros f s s1.
  assert (Ht : fd_title (formData s) <> "") by discriminate.
  assert (Hd : fd_description (formData s) <> "") by discriminate.
  split; [split; [exact Ht | exact Hd]|].
  exact (@first_file_is_uploaded s f [mkFile "b.png" "PNG"] "a.png" Ht Hd).
Defined.

Lemma sent_create_validated (p : pending) :
  sent_by_component p -> create_payload_ok p.
Proof.
  intros (q & s0 & Hq & Hp).
  destruct Hq as [|e s1].
  - simpl in Hp. injection Hp as Hp. subst p. exact I.
  - destruct e as [name value|files value| | |x answer]; simpl in Hp;
      try discriminate.
    + unfold handleSubmit in Hp.
      destruct (missing_or_present (formData s1)) as [Hm|Hok].
      * rewrite (guard_missing Hm) in Hp. discriminate.
      * rewrite (guard_present Hok) in Hp. simpl in Hp.
        injection Hp as Hp. subst p.
        destruct Hok as (Ht & Hd & f & Hf).
        exists (fd_title (formData s1)), (fd_description (formData s1)), f.
        unfold multipart. rewrite Hf. repeat split; assumption.
    + injection Hp as Hp. subst p. exact I.
    + unfold handleDelete in Hp. destruct answer; simpl in Hp; [|discriminate].
      injection Hp as Hp. subst p. exact I.
Qed.

(** X4: handleSubmit on the page: every create request in flight on a page the
    component can reach carries a non-empty title, a non-empty description
    and a file; the text "null" or "undefined" never stands in for the
    image. *)
Theorem creates_in_flight_validated (sys : system) :
  reachable sys -> Forall create_payload_ok (inflight sys).
Proof.
  intros Hr. apply reachable_invariant in Hr. destruct Hr as [Hall _].
  eapply Forall_impl; [|exact Hall]. exact sent_create_validated.
Qed.

Lemma creates_in_flight_validated_witness :
  let sys1 := dispatch (handler (InputChange NameTitle "B") (view mounted)) mounted in
  let sys2 := dispatch (handler (InputChange NameDescription "d") (view sys1)) sys1 in
  let sys3 := dispatch (handler (FileChange [mkFile "b.png" "PNG"] "b.png")
                                (view sys2)) sys2 in
  let sys4 := dispatch (handler Submit (view sys3)) sys3 in
  reachable sys4 /\ Forall create_payload_ok (inflight sys4).
Proof.
  intros sys1 sys2 sys3 sys4.
  assert (Hr : reachable sys4).
  { apply reach_step with (sys := sys3) (l := User Submit);
      [|apply step_user; reflexivity].
    apply reach_step with (sys := sys2)
                          (l := User (FileChange [mkFile "b.png" "PNG"] "b.png"));
      [|apply step_user; reflexivity].
    apply reach_step with (sys := sys1) (l := User (InputChange NameDescription "d"));
      [|apply step_user; reflexivity].
    apply reach_step with (sys := mounted) (l := User (InputChange NameTitle "B"));
      [|apply step_user; reflexivity].
    exact reach_mounted. }
  split; [exact Hr|]. exact (creates_in_flight_validated Hr).
Defined.

(** X5: handleSubmit: a create request that does not succeed, be it rejected
    or answered with a false success flag, keeps the draft and the chosen
    file for another try and leaves the list and the status line alone;
    only the message and the loading flag may change. *)
Theorem create_failure_keeps_draft (d : FormDraft) (s0 : state) :
  all_present d ->
  exists k,
    snd (run (handleSubmit d) s0)
      = Some (mkPending (PostContent (multipart d)) k) /\
    forall (s : state) (o : outcome ContentItem),
      succeeded o = false ->
      let s' := fst (run (k o) s) in
      formData s' = formData s /\
      imageInput s' = imageInput s /\
      content s' = content s /\
      serverStatus s' = serverStatus s /\
      loading s' = false.
Proof.
  intros Hd. unfold handleSubmit. rewrite (guard_present Hd). simpl.
  eexists. split; [reflexivity|].
  intros s [resp|error] Hfail; simpl in Hfail |- *.
  - rewrite Hfail. simpl. repeat split.
  - repeat split.
Qed.

Lemma create_failure_keeps_draft_witness :
  let d := mkDraft "B" "d" (ImgFile (mkFile "b.png" "PNG")) in
  let s := mkState [] d true "" CONNECTED "b.png" in
  let refused := mkError None true "Network Error" in
  (all_present d /\ succeeded (D := ContentItem) (Rejected refused) = false) /\
  exists k,
    snd (run (handleSubmit d) initial_state)
      = Some (mkPending (PostContent (multipart d)) k) /\
    formData (fst (run (k (Rejected refused)) s)) = d /\
    imageInput (fst (run (k (Rejected refused)) s)) = "b.png".
Proof.
  intros d s refused.
  assert (Hd : all_present d).
  { repeat split; try discriminate. eexists; reflexivity. }
  split; [split; [exact Hd | reflexivity]|].
  destruct (create_failure_keeps_draft initial_state Hd) as (k & Hk & H).
  exists k. split; [exact Hk|].
  destruct (H s (Rejected refused) eq_refl) as (Hf & Hi & _).
  split; [exact Hf | exact Hi].
Defined.

(** ** Beyond the claims: deleting *)

Lemma filter_keeps_all (x : ident) (l : list ContentItem) :
  (forall item, In item l -> id item <> x) ->
  filter (fun item => negb (strict_eq (id item) x)) l = l.
Proof.
  induction l as [|item l IH]; simpl; intros H; [reflexivity|].
  destruct (strict_eq_spec (id item) x) as [Heq|_]; simpl.
  - exfalso. apply (H item); [now left | exact Heq].
  - f_equal. apply IH. intros it Hin. apply H. now right.
Qed.

Lemma filter_swap (x y : ident) (l : list ContentItem) :
  filter (fun item => negb (strict_eq (id item) y))
         (filter (fun item => negb (strict_eq (id item) x)) l)
  = filter (fun item => negb (strict_eq (id item) x))
           (filter (fun item => negb (strict_eq (id item) y)) l).
Proof.
  induction l as [|item l IH]; simpl; [reflexivity|].
  destruct (strict_eq (id item) x) eqn:Hx, (strict_eq (id item) y) eqn:Hy;
    simpl; rewrite ?Hx, ?Hy; simpl; rewrite IH; reflexivity.
Qed.

Lemma filter_again (x : ident) (l : list ContentItem) :
  filter (fun item => negb (strict_eq (id item) x))
         (filter (fun item => negb (strict_eq (id item) x)) l)
  = filter (fun item => negb (strict_eq (id item) x)) l.
Proof.
  apply filter_keeps_all. intros item. apply filter_drops_ident.
Qed.

(** X6: handleDelete: a delete that does not succeed never touches the list,
    the draft, the loading flag or the status line.  Rejected, it shows the
    error text alone: what the server wrote in the body of an error
    response plays no part, so two errors with the same text give the same
    page.  Answered with a false success flag, it changes nothing at
    all. *)
Theorem delete_failure_reports (x : ident) (s0 : state) :
  exists k,
    snd (run (handleDelete (fun _ => true) x) s0)
      = Some (mkPending (DeleteContent x) k) /\
    (forall (s : state) (error : js_error),
       fst (run (k (Rejected error)) s)
         = set_message ("❌ Error deleting content: " ++ err_message error) s) /\
    (forall (s : state) (e e' : js_error),
       err_message e = err_message e' ->
       fst (run (k (Rejected e)) s) = fst (run (k (Rejected e')) s)) /\
    (forall (s : state) (resp : response unit),
       body_success (resp_data resp) = false ->
       fst (run (k (Resolved resp)) s) = s).
Proof.
  unfold handleDelete. simpl. eexists. split; [reflexivity|].
  split; [|split].
  - intros s error. reflexivity.
  - intros s e e' H. simpl. now rewrite H.
  - intros s resp H. simpl. rewrite H. reflexivity.
Qed.

Lemma delete_failure_reports_witness :
  let item := mkItem (IdNum 1) "A" "a" None "2024-01-01" in
  let s := mkState [item] empty_draft false "" CONNECTED "" in
  let e := mkError (Some (mkErrResp 404 "Not Found" (Some "No such item")))
                   true "Request failed with status code 404" in
  let e' := mkError None false "Request failed with status code 404" in
  err_message e = err_message e' /\
  exists k,
    snd (run (handleDelete (fun _ => true) (IdNum 1)) s)
      = Some (mkPending (DeleteContent (IdNum 1)) k) /\
    fst (run (k (Rejected e)) s) = fst (run (k (Rejected e')) s) /\
    message (fst (run (k (Rejected e)) s))
      = "❌ Error deleting content: Request failed with status code 404".
Proof.
  intros item s e e'. split; [reflexivity|].
  destruct (delete_failure_reports (IdNum 1) s) as (k & Hk & Hmsg & Hsame & _).
  exists k. split; [exact Hk|]. split.
  - exact (Hsame s e e' eq_refl).
  - rewrite (Hmsg s e). reflexivity.
Defined.

(** X7: handleDelete: a successful delete of [x] leaves the list as it is
    exactly when no displayed item has the identifier [x] (the item may
    have gone with a refresh in the meantime); the success message is shown
    all the same. *)
Theorem delete_absent_ident (x : ident) (s0 : state) :
  exists k,
    snd (run (handleDelete (fun _ => true) x) s0)
      = Some (mkPending (DeleteContent x) k) /\
    forall (s : state) (resp : response unit),
      body_success (resp_data resp) = true ->
      let s' := fst (run (k (Resolved resp)) s) in
      (content s' = content s <->
       forall item, In item (content s) -> id item <> x) /\
      message s' = "✅ Content deleted successfully!".
Proof.
  unfold handleDelete. simpl. eexists. split; [reflexivity|].
  intros s resp Hok. simpl. rewrite Hok. simpl. split; [split|reflexivity].
  - intros Heq item Hin. rewrite <- Heq in Hin.
    exact (filter_drops_ident _ _ Hin).
  - apply filter_keeps_all.
Qed.

Lemma delete_absent_ident_witness :
  let item := mkItem (IdNum 1) "A" "a" None "2024-01-01" in
  let s := mkState [item] empty_draft false "" CONNECTED "" in
  let ok := mkResponse 200 "OK" (mkBody true tt None) in
  (body_success (resp_data ok) = true /\
   forall it, In it (content s) -> id it <> IdNum 7) /\
  exists k,
    snd (run (handleDelete (fun _ => true) (IdNum 7)) s)
      = Some (mkPending (DeleteContent (IdNum 7)) k) /\
    content (fst (run (k (Resolved ok)) s)) = [item].
Proof.
  intros item s ok.
  assert (Habs : forall it, In it (content s) -> id it <> IdNum 7).
  { intros it [<-|[]]. discriminate. }
  split; [split; [reflexivity | exact Habs]|].
  destruct (delete_absent_ident (IdNum 7) s) as (k & Hk & H).
  exists k. split; [exact Hk|].
  exact (proj2 (proj1 (H s ok eq_refl)) Habs).
Defined.

(** X8: handleDelete: successful deletes may settle in any order and any number
    of times.  Two deletes give the same list in either order of
    settlement, and a second delete of the same identifier (a double click
    on the button) removes nothing more. *)
Theorem deletes_commute (x y : ident) (s0 : state) :
  exists kx ky,
    snd (run (handleDelete (fun _ => true) x) s0)
      = Some (mkPending (DeleteContent x) kx) /\
    snd (run (handleDelete (fun _ => true) y) s0)
      = Some (mkPending (DeleteContent y) ky) /\
    forall (s : state) (rx ry : response unit),
      body_success (resp_data rx) = true ->
      body_success (resp_data ry) = true ->
      let after k r st := fst (run (k (Resolved r)) st) in
      after ky ry (after kx rx s) = after kx rx (after ky ry s) /\
      after kx ry (after kx rx s) = after kx rx s.
Proof.
  unfold handleDelete. simpl. eexists. eexists.
  split; [reflexivity|]. split; [reflexivity|].
  intros s rx ry Hx Hy. simpl. rewrite Hx, Hy. simpl.
  unfold set_content, set_message. simpl.
  rewrite filter_swap, filter_again. split; reflexivity.
Qed.

Lemma deletes_commute_witness :
  let a := mkItem (IdNum 1) "A" "a" None "2024-01-01" in
  let b := mkItem (IdNum 2) "B" "b" None "2024-01-02" in
  let c := mkItem (IdNum 3) "C" "c" None "2024-01-03" in
  let s := mkState [a; b; c] empty_draft false "" CONNECTED "" in
  let ok := mkResponse 200 "OK" (mkBody true tt None) in
  body_success (resp_data ok) = true /\
  exists kx ky,
    snd (run (handleDelete (fun _ => true) (IdNum 1)) s)
      = Some (mkPending (DeleteContent (IdNum 1)) kx) /\
    snd (run (handleDelete (fun _ => true) (IdNum 3)) s)
      = Some (mkPending (DeleteContent (IdNum 3)) ky) /\
    fst (run (ky (Resolved ok)) (fst (run (kx (Resolved ok)) s)))
      = fst (run (kx (Resolved ok)) (fst (run (ky (Resolved ok)) s))).
Proof.
  intros a b c s ok. split; [reflexivity|].
  destruct (deletes_commute (IdNum 1) (IdNum 3) s) as (kx & ky & Hx & Hy & H).
  exists kx, ky. split; [exact Hx|]. split; [exact Hy|].
  exact (proj1 (H s ok ok eq_refl eq_refl)).
Defined.

(** ** Beyond the claims: a create and a delete together *)

(** X9: handleSubmit and handleDelete: when a create answered with item [R]
    and a delete of [x] both succeed, the order in which they settle
    matters only if [R] has the identifier [x]: otherwise both orders give
    the same list, and if it has, the delete that settles first misses [R],
    which then stays on top of what the other order gives. *)
Theorem create_delete_order (d : FormDraft) (x : ident) (s0 : state) :
  all_present d ->
  exists kc kd,
    snd (run (handleSubmit d) s0)
      = Some (mkPending (PostContent (multipart d)) kc) /\
    snd (run (handleDelete (fun _ => true) x) s0)
      = Some (mkPending (DeleteContent x) kd) /\
    forall (s : state) (rc : response ContentItem) (rd : response unit),
      body_success (resp_data rc) = true ->
      body_success (resp_data rd) = true ->
      let R := body_data (resp_data rc) in
      let create_first :=
        content (fst (run (kd (Resolved rd)) (fst (run (kc (Resolved rc)) s)))) in
      let delete_first :=
        content (fst (run (kc (Resolved rc)) (fst (run (kd (Resolved rd)) s)))) in
      (id R <> x -> create_first = delete_first) /\
      (id R = x -> delete_first = R :: create_first).
Proof.
  intros Hd. unfold handleSubmit, handleDelete.
  rewrite (guard_present Hd). simpl.
  eexists. eexists. split; [reflexivity|]. split; [reflexivity|].
  intros s rc rd Hc Hdel. simpl. rewrite Hc, Hdel. simpl.
  destruct (strict_eq_spec (id (body_data (resp_data rc))) x) as [Heq|Hne];
    simpl; split; intros H; try reflexivity; contradiction.
Qed.

Lemma create_delete_order_witness :
  let d := mkDraft "B" "d" (ImgFile (mkFile "b.png" "PNG")) in
  let a := mkItem (IdNum 1) "A" "a" None "2024-01-01" in
  let b := mkItem (IdNum 2) "B" "d" None "2024-01-02" in
  let s := mkState [a] d true "" CONNECTED "b.png" in
  let rc := mkResponse 201 "Created" (mkBody true b None) in
  let rd := mkResponse 200 "OK" (mkBody true tt None) in
  (all_present d /\ body_success (resp_data rc) = true /\
   body_success (resp_data rd) = true /\ id b <> IdNum 1) /\
  exists kc kd,
    snd (run (handleSubmit d) s)
      = Some (mkPending (PostContent (multipart d)) kc) /\
    snd (run (handleDelete (fun _ => true) (IdNum 1)) s)
      = Some (mkPending (DeleteContent (IdNum 1)) kd) /\
    content (fst (run (kd (Resolved rd)) (fst (run (kc (Resolved rc)) s))))
      = content (fst (run (kc (Resolved rc)) (fst (run (kd (Resolved rd)) s)))).
Proof.
  intros d a b s rc rd.
  assert (Hd : all_present d).
  { repeat split; try discriminate. eexists; reflexivity. }
  assert (Hne : id b <> IdNum 1) by discriminate.
  split; [split; [exact Hd | split; [reflexivity | split; [reflexivity | exact Hne]]]|].
  destruct (create_delete_order (IdNum 1) s Hd) as (kc & kd & Hc & Hk & H).
  exists kc, kd. split; [exact Hc|]. split; [exact Hk|].
  exact (proj1 (H s rc rd eq_refl eq_refl) Hne).
Defined.

(** X10: handleSubmit, then handleDelete: on a list that holds no item with the
    identifier of the new item [R], a successful create of [R] followed by
    a successful delete of [R]'s identifier gives back the list as it
    was. *)
Theorem create_then_delete_restores
        (d : FormDraft) (rc : response ContentItem) (s0 : state) :
  all_present d ->
  body_success (resp_data rc) = true ->
  exists kc kd,
    snd (run (handleSubmit d) s0)
      = Some (mkPending (PostContent (multipart d)) kc) /\
    snd (run (handleDelete (fun _ => true) (id (body_data (resp_data rc)))) s0)
      = Some (mkPending (DeleteContent (id (body_data (resp_data rc)))) kd) /\
    forall (s : state) (rd : response unit),
      body_success (resp_data rd) = true ->
      (forall item, In item (content s) ->
                    id item <> id (body_data (resp_data rc))) ->
      content (fst (run (kd (Resolved rd)) (fst (run (kc (Resolved rc)) s))))
        = content s.
Proof.
  intros Hd Hc. unfold handleSubmit, handleDelete.
  rewrite (guard_present Hd). simpl.
  eexists. eexists. split; [reflexivity|]. split; [reflexivity|].
  intros s rd Hdel Hfresh. simpl. rewrite Hc, Hdel. simpl.
  destruct (strict_eq_spec (id (body_data (resp_data rc)))
                           (id (body_data (resp_data rc)))) as [_|Hne];
    [|now elim Hne].
  simpl. now apply filter_keeps_all.
Qed.

Lemma create_then_delete_restores_witness :
  let d := mkDraft "B" "d" (ImgFile (mkFile "b.png" "PNG")) in
  let a := mkItem (IdNum 1) "A" "a" None "2024-01-01" in
  let b := mkItem (IdNum 2) "B" "d" None "2024-01-02" in
  let s := mkState [a] d true "" CONNECTED "b.png" in
  let rc := mkResponse 201 "Created" (mkBody true b None) in
  let rd := mkResponse 200 "OK" (mkBody true tt None) in
  (all_present d /\ body_success (resp_data rc) = true /\
   body_success (resp_data rd) = true /\
   forall item, In item (content s) -> id item <> IdNum 2) /\
  exists kc kd,
    snd (run (handleSubmit d) s)
      = Some (mkPending (PostContent (multipart d)) kc) /\
    snd (run (handleDelete (fun _ => true) (IdNum 2)) s)
      = Some (mkPending (DeleteContent (IdNum 2)) kd) /\
    content (fst (run (kd (Resolved rd)) (fst (run (kc (Resolved rc)) s))))
      = [a].
Proof.
  intros d a b s rc rd.
  assert (Hd : all_present d).
  { repeat split; try discriminate. eexists; reflexivity. }
  assert (Hfresh : forall item, In item (content s) -> id item <> IdNum 2).
  { intros item [<-|[]]. discriminate. }
  split; [split; [exact Hd | split; [reflexivity | split; [reflexivity | exact Hfresh]]]|].
  destruct (create_then_delete_restores rc s Hd eq_refl)
    as (kc & kd & Hc & Hk & H).
  exists kc, kd. split; [exact Hc|]. split; [exact Hk|].
  exact (H s rd eq_refl Hfresh).
Defined.

(** ** Beyond the claims: what the page shows *)

(** X11: The message banner after a create settles.  A success is shown with the
    class "message success".  A rejection is shown with its message, and
    its class follows the check mark alone: "message error" unless the text
    taken from the server or from the error contains a check mark, in which
    case the error is displayed as a success. *)
Theorem create_banner (d : FormDraft) (s0 : state) :
  all_present d ->
  exists k,
    snd (run (handleSubmit d) s0)
      = Some (mkPending (PostContent (multipart d)) k) /\
    (forall (s : state) (resp : response ContentItem),
       body_success (resp_data resp) = true ->
       message_banner (fst (run (k (Resolved resp)) s))
         = Some (mkBanner "message success" "✅ Content added successfully!")) /\
    (forall (s : state) (error : js_error),
       let text := Js.or_else (server_message error) (err_message error) in
       message_banner (fst (run (k (Rejected error)) s))
         = Some (mkBanner
                   (if includes text "✅" then "message success"
                    else "message error")
                   ("❌ Error adding content: " ++ text))).
Proof.
  intros Hd. unfold handleSubmit. rewrite (guard_present Hd). simpl.
  eexists. split; [reflexivity|]. split.
  - intros s resp Hok. simpl. rewrite Hok. reflexivity.
  - intros s error. simpl. unfold message_banner. simpl.
    destruct (includes _ "✅"); reflexivity.
Qed.

Lemma create_banner_witness :
  let d := mkDraft "B" "d" (ImgFile (mkFile "b.png" "PNG")) in
  let odd := mkError (Some (mkErrResp 400 "Bad Request" (Some "✅ is not allowed")))
                     true "Request failed with status code 400" in
  all_present d /\
  exists k,
    snd (run (handleSubmit d) initial_state)
      = Some (mkPending (PostContent (multipart d)) k) /\
    message_banner (fst (run (k (Rejected odd)) initial_state))
      = Some (mkBanner "message success"
                       "❌ Error adding content: ✅ is not allowed").
Proof.
  intros d odd.
  assert (Hd : all_present d).
  { repeat split; try discriminate. eexists; reflexivity. }
  split; [exact Hd|].
  destruct (create_banner initial_state Hd) as (k & Hk & _ & H).
  exists k. split; [exact Hk|]. exact (H initial_state odd).
Defined.

(** X12: The first load with the backend down: the mount effect has the health
    probe and the list fetch in flight; when both are rejected and the
    fetch got no response, then in either order of settlement the page
    shows the disconnected status, the "Cannot connect" sentence in an
    error banner and, the list being empty, the connection help; the form
    stays usable. *)
Theorem backend_down_first_load :
  exists kh kf,
    mounted = mkSystem initial_state
                       [mkPending GetHealth kh; mkPending GetContent kf] /\
    forall (eh ef : js_error),
      shape_of ef = NoResponse ->
      let health_first :=
        fst (run (kf (Rejected ef)) (fst (run (kh (Rejected eh)) initial_state))) in
      let fetch_first :=
        fst (run (kh (Rejected eh)) (fst (run (kf (Rejected ef)) initial_state))) in
      health_first = fetch_first /\
      serverStatus health_first = "❌ Disconnected" /\
      message_banner health_first
        = Some (mkBanner "message error"
                  "Cannot connect to server. Make sure backend is running on port 2148!") /\
      content_body health_first = NoContent /\
      submit_disabled health_first = false.
Proof.
  eexists. eexists. split; [reflexivity|].
  intros eh ef Hshape. unfold shape_of in Hshape. simpl.
  destruct (err_response ef); [discriminate|].
  destruct (err_request ef); [|discriminate].
  repeat split.
Qed.

Lemma backend_down_first_load_witness :
  let refused := mkError None true "Network Error" in
  shape_of refused = NoResponse /\
  exists kh kf,
    mounted = mkSystem initial_state
                       [mkPending GetHealth kh; mkPending GetContent kf] /\
    content_body
      (fst (run (kf (Rejected refused))
                (fst (run (kh (Rejected refused)) initial_state))))
      = NoContent.
Proof.
  intros refused. split; [reflexivity|].
  destruct backend_down_first_load as (kh & kf & Hm & H).
  exists kh, kf. split; [exact Hm|].
  destruct (H refused refused eq_refl) as (_ & _ & _ & Hb & _). exact Hb.
Defined.

(** ** Beyond the claims: the status line *)

Lemma settle_status (p : pending) :
  sent_by_component p ->
  forall (o : outcome (p_D p)) (s : state),
    let s' := fst (run (p_k p o) s) in
    (is_health p = false -> serverStatus s' = serverStatus s) /\
    (serverStatus s' = serverStatus s \/
     serverStatus s' = CONNECTED \/ serverStatus s' = DISCONNECTED).
Proof.
  intros (q & s0 & Hq & Hp).
  destruct Hq as [|e s1].
  - simpl in Hp. injection Hp as Hp. subst p.
    intros o s. simpl in o |- *.
    destruct o as [resp|error]; simpl.
    + destruct (body_success (resp_data resp)); simpl; split;
        try discriminate; auto.
    + split; [discriminate | auto].
  - destruct e as [name value|files value| | |x answer]; simpl in Hp;
      try discriminate.
    + unfold handleSubmit in Hp.
      destruct (negb (Js.truthy (fd_title (formData s1)))
                || negb (Js.truthy (fd_description (formData s1)))
                || negb (image_truthy (fd_image (formData s1))));
        simpl in Hp; [discriminate|].
      injection Hp as Hp. subst p.
      intros o s. simpl in o |- *.
      destruct o as [resp|error]; simpl;
        [destruct (body_success (resp_data resp)); simpl|]; auto.
    + injection Hp as Hp. subst p.
      intros o s. simpl in o |- *.
      destruct o as [resp|error]; simpl.
      * destruct (body_success (resp_data resp)); simpl; auto.
      * destruct (err_response error); simpl;
          [|destruct (err_request error); simpl]; auto.
    + unfold handleDelete in Hp. destruct answer; simpl in Hp; [|discriminate].
      injection Hp as Hp. subst p.
      intros o s. simpl in o |- *.
      destruct o as [resp|error]; simpl;
        [destruct (body_success (resp_data resp)); simpl|]; auto.
Qed.

Lemma user_status (e : event) (s : state) :
  let r := run (handler e s) s in
  serverStatus (fst r) = serverStatus s /\ filter is_health (sent r) = [].
Proof.
  destruct e as [name value|files value| | |x answer]; simpl;
    try (split; reflexivity).
  - unfold handleSubmit.
    destruct (negb (Js.truthy (fd_title (formData s)))
              || negb (Js.truthy (fd_description (formData s)))
              || negb (image_truthy (fd_image (formData s)))); simpl;
      split; reflexivity.
  - unfold handleDelete. destruct answer; simpl; split; reflexivity.
Qed.

Lemma healths_app (l l' : list pending) :
  List.length (filter is_health (l ++ l'))
  = (List.length (filter is_health l) + List.length (filter is_health l'))%nat.
Proof. now rewrite filter_app, length_app. Qed.

Lemma status_invariant_mounted : status_invariant mounted.
Proof.
  split; [now left|]. split.
  - vm_compute. apply le_n.
  - intros _. reflexivity.
Qed.

Lemma status_invariant_step (sys sys' : system) (l : label) :
  Forall sent_by_component (inflight sys) ->
  status_invariant sys -> step sys l sys' -> status_invariant sys'.
Proof.
  intros Hall Hinv Hstep. revert Hall Hinv.
  destruct Hstep as [e sys He|s before after p o];
    intros Hall (Hknown & Hle & Hone).
  - destruct (user_status e (view sys)) as [Hst Hnone].
    unfold status_invariant, health_in_flight, dispatch in *. simpl.
    rewrite Hst, healths_app, Hnone. simpl. rewrite Nat.add_0_r.
    repeat split; assumption.
  - simpl in Hall. apply Forall_app in Hall. destruct Hall as [_ Hpa].
    inversion Hpa as [|p' l' Hp _]; subst.
    destruct (settle_facts Hp o s) as (Hnone & _).
    destruct (settle_status Hp o s) as (Hsame & Hcases).
    unfold status_invariant, health_in_flight, dispatch, sent in *.
    simpl in *. rewrite Hnone, app_nil_r.
    rewrite healths_app in Hle, Hone |- *. simpl in Hle, Hone.
    destruct (is_health p); simpl in Hle, Hone.
    + repeat split.
      * unfold status_known in *.
        destruct Hcases as [H|[H|H]]; rewrite H; auto.
      * lia.
      * intros Hc. exfalso. lia.
    + rewrite (Hsame eq_refl). repeat split; assumption.
Qed.

Lemma reachable_status_invariant (sys : system) :
  reachable sys -> status_invariant sys.
Proof.
  induction 1 as [|sys sys' l Hr IH Hstep].
  - exact status_invariant_mounted.
  - apply (status_invariant_step (proj1 (reachable_invariant Hr)) IH Hstep).
Qed.

(** X13: checkServerHealth on the page: on every page the component can reach
    the status line reads one of "checking...", the connected label or the
    disconnected label, and at most one health probe is in flight. *)
Theorem status_one_of_three (sys : system) :
  reachable sys ->
  status_known (serverStatus (view sys)) /\ (health_in_flight sys <= 1)%nat.
Proof.
  intros Hr. destruct (reachable_status_invariant Hr) as (Hk & Hle & _).
  split; assumption.
Qed.

Lemma status_one_of_three_witness :
  let sys := dispatch (handler Refresh (view mounted)) mounted in
  reachable sys /\
  status_known (serverStatus (view sys)) /\ (health_in_flight sys <= 1)%nat.
Proof.
  intros sys.
  assert (Hr : reachable sys).
  { apply reach_step with (sys := mounted) (l := User Refresh);
      [exact reach_mounted | apply step_user; reflexivity]. }
  split; [exact Hr|]. exact (status_one_of_three Hr).
Defined.

(** X14: checkServerHealth on the page: the backend is probed once, by the mount
    effect, and never again.  Once the status line has left "checking...",
    no step of the page changes it: no user event, the Refresh button
    included, and no settlement of a request. *)
Theorem status_is_final (sys sys' : system) (l : label) :
  reachable sys ->
  serverStatus (view sys) <> "checking..." ->
  step sys l sys' ->
  serverStatus (view sys') = serverStatus (view sys) /\
  health_in_flight sys' = 0%nat.
Proof.
  intros Hr Hset Hstep.
  pose proof (proj1 (reachable_invariant Hr)) as Hall.
  destruct (reachable_status_invariant Hr) as (_ & Hle & Hone).
  assert (Hzero : health_in_flight sys = 0%nat).
  { destruct (health_in_flight sys) as [|[|n]]; [reflexivity| |lia].
    now elim Hset; apply Hone. }
  clear Hr Hle Hone Hset. revert Hall Hzero.
  destruct Hstep as [e sys He|s before after p o]; intros Hall Hzero.
  - destruct (user_status e (view sys)) as [Hst Hnone].
    unfold health_in_flight, dispatch in *. simpl.
    rewrite healths_app, Hnone, Hzero. split; [exact Hst | reflexivity].
  - simpl in Hall. apply Forall_app in Hall. destruct Hall as [_ Hpa].
    inversion Hpa as [|p' l' Hp _]; subst.
    destruct (settle_facts Hp o s) as (Hnone & _).
    destruct (settle_status Hp o s) as (Hsame & _).
    unfold health_in_flight, dispatch, sent in *. simpl in *.
    rewrite Hnone, app_nil_r.
    rewrite healths_app in Hzero |- *. simpl in Hzero.
    destruct (is_health p); simpl in Hzero; [lia|].
    split; [exact (Hsame eq_refl) | exact Hzero].
Qed.

Lemma status_is_final_witness :
  let idle := mkPending GetHealth (fun _ => Done) in
  let probe := nth 0 (inflight mounted) idle in
  let fetch := nth 1 (inflight mounted) idle in
  let up : outcome (p_D probe) :=
    Resolved (mkResponse 200 "OK" (mkBody true tt None)) in
  let sys := dispatch (p_k probe up) (mkSystem initial_state ([] ++ [fetch])) in
  let sys' := dispatch (handler Refresh (view sys)) sys in
  (reachable sys /\ serverStatus (view sys) <> "checking..." /\
   step sys (User Refresh) sys') /\
  serverStatus (view sys') = "✅ Connected".
Proof.
  intros idle probe fetch up sys sys'.
  assert (Hr : reachable sys).
  { apply reach_step with (sys := mounted) (l := Settles probe up);
      [exact reach_mounted|].
    exact (step_settles initial_state [] [fetch] probe up). }
  assert (Hset : serverStatus (view sys) <> "checking...") by discriminate.
  assert (Hstep : step sys (User Refresh) sys') by (apply step_user; reflexivity).
  split; [split; [exact Hr | split; [exact Hset | exact Hstep]]|].
  exact (proj1 (status_is_final Hr Hset Hstep)).
Defined.

(** ** Beyond the claims: who writes the draft *)

Lemma settle_draft (p : pending) :
  sent_by_component p ->
  forall (o : outcome (p_D p)) (s : state),
    let s' := fst (run (p_k p o) s) in
    (formData s' = formData s /\ imageInput s' = imageInput s) \/
    (is_create p = true /\ succeeded o = true /\
     formData s' = empty_draft /\ imageInput s' = "").
Proof.
  intros (q & s0 & Hq & Hp).
  destruct Hq as [|e s1].
  - simpl in Hp. injection Hp as Hp. subst p.
    intros o s. simpl in o |- *.
    destruct o as [resp|error]; simpl;
      [destruct (body_success (resp_data resp)); simpl|]; auto.
  - destruct e as [name value|files value| | |x answer]; simpl in Hp;
      try discriminate.
    + unfold handleSubmit in Hp.
      destruct (negb (Js.truthy (fd_title (formData s1)))
                || negb (Js.truthy (fd_description (formData s1)))
                || negb (image_truthy (fd_image (formData s1))));
        simpl in Hp; [discriminate|].
      injection Hp as Hp. subst p.
      intros o s. simpl in o |- *.
      destruct o as [resp|error]; simpl;
        [destruct (body_success (resp_data resp)); simpl|]; auto.
    + injection Hp as Hp. subst p.
      intros o s. simpl in o |- *.
      destruct o as [resp|error]; simpl.
      * destruct (body_success (resp_data resp)); simpl; auto.
      * destruct (err_response error); simpl;
          [|destruct (err_request error); simpl]; auto.
    + unfold handleDelete in Hp. destruct answer; simpl in Hp; [|discriminate].
      injection Hp as Hp. subst p.
      intros o s. simpl in o |- *.
      destruct o as [resp|error]; simpl;
        [destruct (body_success (resp_data resp)); simpl|]; auto.
Qed.

(** X15: The draft and the file input on the page: apart from the user's own
    edits (a change of an input or of the file input), one thing only
    writes them, the settlement of a create with a true success flag, which
    empties both.  A submit, a refresh, a delete click and every other
    settlement, failed creates included, leave what the user typed and
    chose as it is. *)
Theorem draft_written_only_by_user_or_create (sys sys' : system) (l : label) :
  reachable sys ->
  step sys l sys' ->
  match l with
  | User (InputChange _ _) => imageInput (view sys') = imageInput (view sys)
  | User (FileChange _ _) =>
      fd_title (formData (view sys')) = fd_title (formData (view sys)) /\
      fd_description (formData (view sys'))
        = fd_description (formData (view sys))
  | User _ =>
      formData (view sys') = formData (view sys) /\
      imageInput (view sys') = imageInput (view sys)
  | Settles p o =>
      (formData (view sys') = formData (view sys) /\
       imageInput (view sys') = imageInput (view sys)) \/
      (is_create p = true /\ succeeded o = true /\
       formData (view sys') = empty_draft /\ imageInput (view sys') = "")
  end.
Proof.
  intros Hr Hstep. apply reachable_invariant in Hr. revert Hr.
  destruct Hstep as [e sys He|s before after p o]; intros [Hall _].
  - destruct e as [name value|files value| | |x answer]; simpl;
      try (split; reflexivity); try reflexivity.
    + unfold handleSubmit.
      destruct (negb (Js.truthy (fd_title (formData (view sys))))
                || negb (Js.truthy (fd_description (formData (view sys))))
                || negb (image_truthy (fd_image (formData (view sys)))));
        simpl; split; reflexivity.
    + unfold handleDelete. destruct answer; simpl; split; reflexivity.
  - simpl in Hall. apply Forall_app in Hall. destruct Hall as [_ Hpa].
    inversion Hpa as [|p' l' Hp _]; subst.
    exact (settle_draft Hp o s).
Qed.

Lemma draft_written_only_by_user_or_create_witness :
  let sys := dispatch (handler (InputChange NameTitle "B") (view mounted)) mounted in
  let sys' := dispatch (handler Refresh (view sys)) sys in
  (reachable sys /\ step sys (User Refresh) sys') /\
  formData (view sys') = mkDraft "B" "" ImgNull.
Proof.
  intros sys sys'.
  assert (Hr : reachable sys).
  { apply reach_step with (sys := mounted) (l := User (InputChange NameTitle "B"));
      [exact reach_mounted | apply step_user; reflexivity]. }
  assert (Hstep : step sys (User Refresh) sys') by (apply step_user; reflexivity).
  split; [split; [exact Hr | exact Hstep]|].
  exact (proj1 (draft_written_only_by_user_or_create Hr Hstep)).
Defined.
